(** * IBM IAM signer and credential provider of aws-sdk-go

    A shallow embedding of [aws/signer/ibm/ibm.go]: package [ibm]
    ([Signer.Sign], [SignRequest]) and package [ibmcreds]
    ([Provider.Retrieve], [Provider.getCredentials], [Provider.IsExpired]).

    Go values are modelled as follows.
    - [string] is [String.string]; [int], [int64] and [time.Duration] are [Z],
      and where Go's [int64] arithmetic can overflow the wrap-around is
      written out ([time.wrap64]).
    - [http.Header] and [url.Values] (both [map[string][]string]) are
      [gmap string (list string)].
    - A Go result pair [(T, error)] is a pair whose second component is an
      [option error], [None] standing for [nil].
    - A method with a pointer receiver returns the updated receiver.
    - The HTTP exchange of [getCredentials] is a command of a small
      interaction monad ([io.Cmd]); [io.exec] runs it against a network. *)

From Stdlib Require Import ZArith Ascii String DecimalString.
From stdpp Require Import base option list strings gmap.

Local Open Scope Z_scope.

(** ** Go's [error] values

    The error values this code creates or passes along: plain text errors
    ([fmt.Errorf] without a wrapping verb), the errors of the HTTP client and
    of the JSON decoder, and the SDK's [awserr.Error], which carries a code,
    a message and the original error. *)
Inductive error : Type :=
| errorString (text : string)
| url_Error (Op URL : string) (Err : error)
| json_SyntaxError (msg : string) (Offset : Z)
| awserr_New (code message : string) (origErr : error).

Module awserr.

(** [Error.Code()]: only SDK errors have one. *)
Definition Code (e : error) : option string :=
  match e with
  | awserr_New c _ _ => Some c
  | _ => None
  end.

Definition Message (e : error) : option string :=
  match e with
  | awserr_New _ m _ => Some m
  | _ => None
  end.

Definition OrigErr (e : error) : option error :=
  match e with
  | awserr_New _ _ o => Some o
  | _ => None
  end.

End awserr.

(** ** [fmt]: the [%d] verb *)
Module fmt.

Definition Sprint_d (n : Z) : string := NilZero.string_of_int (Z.to_int n).

(** [fmt.Errorf("server returned status %d instead of 200", code)] *)
Definition Errorf_status (code : Z) : error :=
  errorString ("server returned status " +:+ Sprint_d code +:+ " instead of 200").

End fmt.

(** ** [net/http]: headers and requests *)
Module http.

Definition is_lower (c : ascii) : bool :=
  (97 <=? nat_of_ascii c)%nat && (nat_of_ascii c <=? 122)%nat.
Definition is_upper (c : ascii) : bool :=
  (65 <=? nat_of_ascii c)%nat && (nat_of_ascii c <=? 90)%nat.
Definition is_digit (c : ascii) : bool :=
  (48 <=? nat_of_ascii c)%nat && (nat_of_ascii c <=? 57)%nat.

(** The token characters of RFC 7230, as in [validHeaderFieldByte]. *)
Definition validHeaderFieldByte (c : ascii) : bool :=
  is_lower c || is_upper c || is_digit c ||
  bool_decide (c ∈ list_ascii_of_string "!#$%&'*+-.^_`|~").

Fixpoint all_valid (s : string) : bool :=
  match s with
  | EmptyString => true
  | String c s' => validHeaderFieldByte c && all_valid s'
  end.

(** Upper case at the start and after each hyphen, lower case elsewhere. *)
Fixpoint canonical (upper : bool) (s : string) : string :=
  match s with
  | EmptyString => EmptyString
  | String c s' =>
      let c' :=
        if upper && is_lower c then ascii_of_nat (nat_of_ascii c - 32)
        else if negb upper && is_upper c then ascii_of_nat (nat_of_ascii c + 32)
        else c in
      String c' (canonical (Ascii.eqb c' "-") s')
  end.

(** [textproto.CanonicalMIMEHeaderKey]: a key holding a byte that is not a
    token character is returned as it is. *)
Definition CanonicalMIMEHeaderKey (s : string) : string :=
  if all_valid s then canonical true s else s.

Record Request : Type := mkRequest {
  Method : string;
  URL : string;
  Header : gmap string (list string)
}.

(** [Header.Values]: the values stored under the canonical key, [nil] when
    there are none. *)
Definition Values (h : gmap string (list string)) (key : string) : list string :=
  default [] (h !! CanonicalMIMEHeaderKey key).

(** [Header.Get]: the first value, or the empty string. *)
Definition Get (h : gmap string (list string)) (key : string) : string :=
  match Values h key with
  | [] => ""
  | v :: _ => v
  end.

(** [Header.Add]: append to the values stored under the canonical key. *)
Definition Add (h : gmap string (list string)) (key value : string)
  : gmap string (list string) :=
  <[CanonicalMIMEHeaderKey key := Values h key ++ [value]]> h.

Definition Request_Header_Add (r : Request) (key value : string) : Request :=
  {| Method := Method r; URL := URL r; Header := Add (Header r) key value |}.

End http.

(** ** [time]: instants and durations

    A [time.Time] without monotonic reading holds the seconds since January
    1 of year 1 in an [int64] and the nanoseconds within the second, and
    [Before] compares the two in this order. Such a time is modelled as the
    instant it denotes: the number of nanoseconds since the Unix epoch. A
    [Duration] is a number of nanoseconds. *)
Module time.

Definition Second : Z := 1000000000.

(** A two's complement [int64]: the representative of [z] modulo 2^64 in
    [-2^63, 2^63). *)
Definition wrap64 (z : Z) : Z :=
  (z + 9223372036854775808) mod 18446744073709551616 - 9223372036854775808.

(** Seconds from January 1 of year 1 to the Unix epoch. *)
Definition unixToInternal : Z := 62135596800.

(** [time.Unix(sec, nsec)]: [nsec] outside [0, 1e9) is carried into [sec]
    (Go's division truncates), and [sec + unixToInternal] is an [int64] sum,
    which wraps for [sec] above 9223371974719179007. *)
Definition Unix (sec nsec : Z) : Z :=
  let '(sec, nsec) :=
    if (nsec <? 0) || (1000000000 <=? nsec) then
      let n := Z.quot nsec 1000000000 in
      let sec := wrap64 (sec + n) in
      let nsec := nsec - n * 1000000000 in
      if nsec <? 0 then (wrap64 (sec - 1), nsec + 1000000000)
      else (sec, nsec)
    else (sec, nsec) in
  (wrap64 (sec + unixToInternal) - unixToInternal) * Second + nsec.

(** [Time.Add] *)
Definition Add (t d : Z) : Z := t + d.

(** The zero [time.Time]: January 1, year 1, 00:00:00 UTC. *)
Definition zero : Z := Unix (-62135596800) 0.

End time.

(** ** Package [credentials] of the SDK *)
Module credentials.

(** The fields of [credentials.Value] that this code sets or reads. *)
Record Value : Type := mkValue {
  ServiceInstanceID : string;
  SessionToken : string;
  ProviderName : string
}.

Record Expiry : Type := mkExpiry {
  expiration : Z
}.

(** Modelled from the spec: [Expiry.SetExpiration] of the SDK's credentials
    package, which is not part of this source file. The spec compares the
    current time with the expiration minus the expiry window; the
    documentation of [Provider.ExpiryWindow] in ibm.go adds that a window of
    0 or less is ignored. The subtraction is the exact one of the spec. *)
Definition SetExpiration (e : Expiry) (expiration window : Z) : Expiry :=
  {| expiration := if 0 <? window then time.Add expiration (- window)
                   else expiration |}.

(** Modelled from the spec: [Expiry.IsExpired] of the SDK's credentials
    package, which is not part of this source file. The spec: a credential
    is valid only while [now < expiration - expiry_window]. [now] is the
    reading of the clock. *)
Definition IsExpired (e : Expiry) (now : Z) : bool :=
  negb (now <? expiration e).

End credentials.

(** ** The network, as seen by this code *)
Module io.

(** What [http.PostForm] returns: an error, or a response of which this
    code reads the status code and the body. *)
Inductive Reply : Type :=
| TransportError (err : error)
| Response (StatusCode : Z) (Body : string).

(** A command either returns, or posts a form and goes on with the reply. *)
Inductive Cmd (A : Type) : Type :=
| Return (a : A)
| PostForm (url : string) (data : gmap string (list string))
           (k : Reply -> Cmd A).
Arguments Return {A} a.
Arguments PostForm {A} url data k.

Fixpoint bind {A B : Type} (m : Cmd A) (f : A -> Cmd B) : Cmd B :=
  match m with
  | Return a => f a
  | PostForm url data k => PostForm url data (fun r => bind (k r) f)
  end.

(** [http.PostForm] itself. *)
Definition http_PostForm (url : string) (data : gmap string (list string))
  : Cmd Reply :=
  PostForm url data Return.

(** A network: the forms posted so far, and a server whose reply may depend
    on them as well as on the URL and form it is sent. *)
Record Network : Type := mkNetwork {
  posted : list (string * gmap string (list string));
  server : list (string * gmap string (list string)) ->
           string -> gmap string (list string) -> Reply
}.

Fixpoint exec {A : Type} (m : Cmd A) (net : Network) : A * Network :=
  match m with
  | Return a => (a, net)
  | PostForm url data k =>
      exec (k (server net (posted net) url data))
           {| posted := posted net ++ [(url, data)]; server := server net |}
  end.

(** The reply the network gives to the next post of [url] and [data]. *)
Definition reply_to (net : Network) (url : string)
           (data : gmap string (list string)) : Reply :=
  server net (posted net) url data.

End io.

Notation "x <- m ;; k" := (io.bind m (fun x => k))
  (at level 100, m at next level, right associativity).

(** ** Package [ibmcreds] *)
Module ibmcreds.

Definition ProviderName : string := "IBMIAMProvider".

Definition defaultIAMEndPoint : string := "https://iam.bluemix.net/oidc/token".

Record Provider : Type := mkProvider {
  Expiry : credentials.Expiry;
  apiKey : string;
  serviceInstanceID : string;
  IAMEndpoint : string;
  ExpiryWindow : Z
}.

(** [Expiration] is an [int64]; [time.Unix] reads it modulo 2^64. *)
Record getCredentialsOutput : Type := mkOutput {
  Expiration : Z;
  AccessToken : string
}.

Definition NewProviderClient (apiKey serviceInstanceID iamEndpoint : string)
  : Provider :=
  {| Expiry := {| credentials.expiration := time.zero |};
     apiKey := apiKey;
     serviceInstanceID := serviceInstanceID;
     IAMEndpoint := iamEndpoint;
     ExpiryWindow := 0 |}.

Definition IsExpired (p : Provider) (now : Z) : bool :=
  credentials.IsExpired (Expiry p) now.

(** The embedded [Expiry]'s [SetExpiration], through the pointer receiver. *)
Definition SetExpiration (p : Provider) (expiration window : Z) : Provider :=
  {| Expiry := credentials.SetExpiration (Expiry p) expiration window;
     apiKey := apiKey p;
     serviceInstanceID := serviceInstanceID p;
     IAMEndpoint := IAMEndpoint p;
     ExpiryWindow := ExpiryWindow p |}.

Definition IAMEndpointURL (p : Provider) : string :=
  if bool_decide (IAMEndpoint p ≠ "") then IAMEndpoint p +:+ "/oidc/token"
  else defaultIAMEndPoint.

Definition form (p : Provider) : gmap string (list string) :=
  <["grant_type" := ["urn:ibm:params:oauth:grant-type:apikey"]]>
    (<["response_type" := ["cloud_iam"]]>
       (<["apikey" := [apiKey p]]> ∅)).

Section Decoder.

(** [json.NewDecoder(body).Decode(out)] into a fresh
    [getCredentialsOutput]: the decoded value, or the decoder's error. *)
Variable json_Decode : string -> getCredentialsOutput + error.

(** What [getCredentials] does with the reply of the endpoint: the
    decoded output, or the error it returns with a nil output. *)
Definition handle_reply (r : io.Reply) : getCredentialsOutput + error :=
  match r with
  | io.TransportError err => inr err
  | io.Response StatusCode Body =>
      if bool_decide (StatusCode ≠ 200) then
        inr (fmt.Errorf_status StatusCode)
      else
        match json_Decode Body with
        | inr err => inr err
        | inl out => inl out
        end
  end.

Definition getCredentials (p : Provider)
  : io.Cmd (getCredentialsOutput + error) :=
  resp <- io.http_PostForm (IAMEndpointURL p) (form p) ;;
  io.Return (handle_reply resp).

(** What [Retrieve] does with the result of [getCredentials]. *)
Definition finish (p : Provider) (res : getCredentialsOutput + error)
  : (credentials.Value * option error) * Provider :=
  match res with
  | inr err =>
      (({| credentials.ServiceInstanceID := "";
           credentials.SessionToken := "";
           credentials.ProviderName := ProviderName |},
        Some (awserr_New "CredentialsEndpointError"
                         "failed to load credentials" err)), p)
  | inl resp =>
      let p' := SetExpiration p (time.Unix (Expiration resp) 0)
                              (ExpiryWindow p) in
      (({| credentials.ServiceInstanceID := serviceInstanceID p';
           credentials.SessionToken := AccessToken resp;
           credentials.ProviderName := ProviderName |}, None), p')
  end.

Definition Retrieve (p : Provider)
  : io.Cmd ((credentials.Value * option error) * Provider) :=
  res <- getCredentials p ;;
  io.Return (finish p res).

(** [Retrieve] run against a network. *)
Definition run_Retrieve (p : Provider) (net : io.Network)
  : ((credentials.Value * option error) * Provider) * io.Network :=
  io.exec (Retrieve p) net.

End Decoder.

End ibmcreds.

(** ** Package [ibm]: the signer *)
Module ibm.

(** [request.Operation]: the signer reads its name. *)
Record Operation : Type := mkOperation {
  Name : string
}.

Section Signer.

(** [*credentials.Credentials]: the state of the credentials object, and
    its [Get], which returns a value and an error and may change that
    state (it caches what its provider retrieves). *)
Context {Credentials : Type}.
Variable Credentials_Get :
  Credentials -> (credentials.Value * option error) * Credentials.

Record Signer : Type := mkSigner {
  Signer_Credentials : Credentials
}.

Definition NewSigner (credentials : Credentials) : Signer :=
  {| Signer_Credentials := credentials |}.

(** [Sign] returns its error, the request and the credentials, both of
    which it reaches through pointers. *)
Definition Sign (ibm : Signer) (r : http.Request) (op : Operation)
  : (option error * http.Request) * Credentials :=
  match Credentials_Get (Signer_Credentials ibm) with
  | ((_, Some err), c) => ((Some err, r), c)
  | ((creds, None), c) =>
      let r := http.Request_Header_Add r "Authorization"
                 ("Bearer " +:+ credentials.SessionToken creds) in
      let r :=
        if bool_decide (Name op = "ListBuckets") ||
           bool_decide (Name op = "CreateBucket")
        then http.Request_Header_Add r "ibm-service-instance-id"
               (credentials.ServiceInstanceID creds)
        else r in
      ((None, r), c)
  end.

(** [request.Request]: the fields [SignRequest] reads and writes. *)
Record Request : Type := mkRequest {
  Config_Credentials : Credentials;
  HTTPRequest : http.Request;
  Request_Operation : Operation;
  Error : option error
}.

Definition SignRequest (req : Request) : Request :=
  let ibm := NewSigner (Config_Credentials req) in
  match Sign ibm (HTTPRequest req) (Request_Operation req) with
  | ((Some err, r), c) =>
      {| Config_Credentials := c; HTTPRequest := r;
         Request_Operation := Request_Operation req; Error := Some err |}
  | ((None, r), c) =>
      {| Config_Credentials := c; HTTPRequest := r;
         Request_Operation := Request_Operation req; Error := Error req |}
  end.

End Signer.

End ibm.

(** ** Concrete inputs

    A provider, a decoder and some networks on which the definitions above
    can be evaluated. *)
Module sample.

Definition quoted (s : string) : string :=
  String (ascii_of_nat 34) s +:+ String (ascii_of_nat 34) EmptyString.

(** The JSON body of a token response. *)
Definition token_body (tok : string) (exp : Z) : string :=
  "{" +:+ quoted "access_token" +:+ ":" +:+ quoted tok +:+ "," +:+
  quoted "expiration" +:+ ":" +:+ fmt.Sprint_d exp +:+ "}".

(** What Go's decoder gives on the bodies used below: the two token
    responses decode to their fields, the empty object leaves the output
    at its zero value, and anything else stands for a body that is not
    JSON. *)
Definition decode (body : string) : ibmcreds.getCredentialsOutput + error :=
  if bool_decide (body = token_body "tok" 500) then
    inl {| ibmcreds.Expiration := 500; ibmcreds.AccessToken := "tok" |}
  else if bool_decide (body = token_body "tok" 100) then
    inl {| ibmcreds.Expiration := 100; ibmcreds.AccessToken := "tok" |}
  else if bool_decide (body = "{}") then
    inl {| ibmcreds.Expiration := 0; ibmcreds.AccessToken := "" |}
  else
    inr (json_SyntaxError
           "invalid character 'o' in literal null (expecting 'u')" 2).

(** A network whose server always gives the same reply. *)
Definition always (r : io.Reply) : io.Network :=
  {| io.posted := []; io.server := fun _ _ _ => r |}.

Definition with_window (p : ibmcreds.Provider) (w : Z) : ibmcreds.Provider :=
  {| ibmcreds.Expiry := ibmcreds.Expiry p;
     ibmcreds.apiKey := ibmcreds.apiKey p;
     ibmcreds.serviceInstanceID := ibmcreds.serviceInstanceID p;
     ibmcreds.IAMEndpoint := ibmcreds.IAMEndpoint p;
     ibmcreds.ExpiryWindow := w |}.

Definition provider : ibmcreds.Provider :=
  ibmcreds.NewProviderClient "key" "sid" "".

Definition provider_custom : ibmcreds.Provider :=
  ibmcreds.NewProviderClient "key" "sid" "https://iam.example.test".

(** Credentials that always give the same answer. *)
Definition static (c : credentials.Value * option error)
  : (credentials.Value * option error) * (credentials.Value * option error) :=
  (c, c).

Definition creds_ok : credentials.Value * option error :=
  ({| credentials.ServiceInstanceID := "sid";
      credentials.SessionToken := "tok";
      credentials.ProviderName := ibmcreds.ProviderName |}, None).

Definition creds_failed : credentials.Value * option error :=
  ({| credentials.ServiceInstanceID := "";
      credentials.SessionToken := "";
      credentials.ProviderName := "" |},
   Some (awserr_New "CredentialsEndpointError" "failed to load credentials"
                    (fmt.Errorf_status 500))).

Definition request : http.Request :=
  {| http.Method := "PUT"; http.URL := "https://s3.example.test/bucket";
     http.Header := {[ "Content-Type" := ["text/plain"] ]} |}.

Definition op (name : string) : ibm.Operation := {| ibm.Name := name |}.

Definition sdk_request (c : credentials.Value * option error)
           (name : string) : ibm.Request :=
  {| ibm.Config_Credentials := c;
     ibm.HTTPRequest := request;
     ibm.Request_Operation := op name;
     ibm.Error := None |}.

End sample.

(** ** Scenarios

    A server that changes its reply after the first post, and a credentials
    object that asks the provider on every [Get]. *)
Module scenario.

(** The first post gets [r1], every later one [r2]. *)
Definition first_then (r1 r2 : io.Reply) : io.Network :=
  {| io.posted := [];
     io.server := fun earlier _ _ =>
                    match earlier with
                    | [] => r1
                    | _ :: _ => r2
                    end |}.

(** Credentials whose state is a provider and the network it talks to, and
    whose [Get] hands on what the provider's [Retrieve] returns. *)
Definition retrieving (c : ibmcreds.Provider * io.Network)
  : (credentials.Value * option error) * (ibmcreds.Provider * io.Network) :=
  let '((res, p'), net') :=
    ibmcreds.run_Retrieve sample.decode (fst c) (snd c) in
  (res, (p', net')).

Definition token_reply (exp : Z) : io.Reply :=
  io.Response 200 (sample.token_body "tok" exp).

(** A request that already carries an Authorization header. *)
Definition authorized_request : http.Request :=
  {| http.Method := "GET"; http.URL := "https://s3.example.test/bucket/key";
     http.Header := {[ "Authorization" := ["Basic dXNlcjpwdw=="] ]} |}.

(** A provider and the network it has not yet talked to. *)
Definition fresh : ibmcreds.Provider * io.Network :=
  (sample.provider, sample.always (token_reply 500)).

End scenario.

(** ** The properties in the words of the spec, and what they speak of *)

(** The expiry property in the words of the spec, for a provider [p], a
    network [net] and the instant [now] at which [Retrieve] returns: when
    [Retrieve] succeeds on a response with expiration [E], and [W] is the
    expiry window, [IsExpired] is false before [E - W], true from [E - W] on,
    and false at [now]. *)
Definition expiry_as_stated json_Decode (p : ibmcreds.Provider)
           (net : io.Network) (now : Z) : Prop :=
  forall v p' net' resp,
    ibmcreds.run_Retrieve json_Decode p net = ((v, None), p', net') ->
    ibmcreds.handle_reply json_Decode
      (io.reply_to net (ibmcreds.IAMEndpointURL p) (ibmcreds.form p)) = inl resp ->
    let E := time.Unix (ibmcreds.Expiration resp) 0 in
    let W := ibmcreds.ExpiryWindow p in
    (forall t, t < E - W -> ibmcreds.IsExpired p' t = false) /\
    (forall t, E - W <= t -> ibmcreds.IsExpired p' t = true) /\
    ibmcreds.IsExpired p' now = false.

(** The decode-error property in the words of the spec: when the endpoint
    answers 200 with a body the decoder rejects with error [e], [Retrieve]
    returns [e] itself. *)
Definition decode_error_as_stated json_Decode (p : ibmcreds.Provider)
           (net : io.Network) : Prop :=
  forall body e,
    io.reply_to net (ibmcreds.IAMEndpointURL p) (ibmcreds.form p) =
      io.Response 200 body ->
    json_Decode body = inr e ->
    snd (fst (fst (ibmcreds.run_Retrieve json_Decode p net))) = Some e.

(** The endpoint failed: the transport gave an error, or the status is not
    200. *)
Definition endpoint_failed (r : io.Reply) : bool :=
  match r with
  | io.TransportError _ => true
  | io.Response StatusCode _ => bool_decide (StatusCode ≠ 200)
  end.

(** What [getCredentials] reports for such a reply. *)
Definition endpoint_cause (r : io.Reply) : error :=
  match r with
  | io.TransportError err => err
  | io.Response StatusCode _ => fmt.Errorf_status StatusCode
  end.

(** The operations that get the service-instance id. *)
Definition named_bucket_op (op : ibm.Operation) : bool :=
  bool_decide (ibm.Name op = "ListBuckets") ||
  bool_decide (ibm.Name op = "CreateBucket").

(** * Properties *)

Example canonical_authorization :
  http.CanonicalMIMEHeaderKey "Authorization" = "Authorization".
Proof. reflexivity. Qed.

Example canonical_instance_id :
  http.CanonicalMIMEHeaderKey "ibm-service-instance-id" = "Ibm-Service-Instance-Id".
Proof. reflexivity. Qed.

Example status_500_text :
  fmt.Errorf_status 500 = errorString "server returned status 500 instead of 200".
Proof. reflexivity. Qed.

(** ** The header map *)

Lemma Values_Add_same (h : gmap string (list string)) (key value : string) :
  http.Values (http.Add h key value) key = http.Values h key ++ [value].
Proof. unfold http.Add, http.Values at 1. by rewrite lookup_insert_eq. Qed.

Lemma Values_Add_other (h : gmap string (list string)) (key key' value : string) :
  http.CanonicalMIMEHeaderKey key ≠ http.CanonicalMIMEHeaderKey key' ->
  http.Values (http.Add h key value) key' = http.Values h key'.
Proof.
  intros Hne. unfold http.Add, http.Values at 1.
  by rewrite lookup_insert_ne.
Qed.

Lemma app_singleton_neq {A : Type} (l : list A) (x : A) : l ++ [x] ≠ l.
Proof.
  intros H. apply (f_equal length) in H.
  rewrite length_app in H. simpl in H. lia.
Qed.

(** ** [Retrieve] as one exchange with the endpoint *)

Lemma Retrieve_unfold json_Decode (p : ibmcreds.Provider) :
  ibmcreds.Retrieve json_Decode p =
  io.PostForm (ibmcreds.IAMEndpointURL p) (ibmcreds.form p)
    (fun r => io.Return
                (ibmcreds.finish p (ibmcreds.handle_reply json_Decode r))).
Proof. reflexivity. Qed.

Lemma run_Retrieve_eq json_Decode (p : ibmcreds.Provider) (net : io.Network) :
  ibmcreds.run_Retrieve json_Decode p net =
  (ibmcreds.finish p
     (ibmcreds.handle_reply json_Decode
        (io.reply_to net (ibmcreds.IAMEndpointURL p) (ibmcreds.form p))),
   {| io.posted :=
        io.posted net ++ [(ibmcreds.IAMEndpointURL p, ibmcreds.form p)];
      io.server := io.server net |}).
Proof. reflexivity. Qed.

Lemma finish_error (p : ibmcreds.Provider)
      (res : ibmcreds.getCredentialsOutput + error)
      (v : credentials.Value) (err : error) (p' : ibmcreds.Provider) :
  ibmcreds.finish p res = ((v, Some err), p') ->
  exists e, res = inr e /\ p' = p /\
    v = {| credentials.ServiceInstanceID := "";
           credentials.SessionToken := "";
           credentials.ProviderName := "IBMIAMProvider" |} /\
    err = awserr_New "CredentialsEndpointError" "failed to load credentials" e.
Proof.
  destruct res as [resp | e]; simpl; intros H; [discriminate |].
  exists e. by inversion H.
Qed.

Lemma finish_success (p : ibmcreds.Provider)
      (res : ibmcreds.getCredentialsOutput + error)
      (v : credentials.Value) (p' : ibmcreds.Provider) :
  ibmcreds.finish p res = ((v, None), p') ->
  exists resp, res = inl resp /\
    p' = ibmcreds.SetExpiration p (time.Unix (ibmcreds.Expiration resp) 0)
                                (ibmcreds.ExpiryWindow p) /\
    v = {| credentials.ServiceInstanceID := ibmcreds.serviceInstanceID p;
           credentials.SessionToken := ibmcreds.AccessToken resp;
           credentials.ProviderName := "IBMIAMProvider" |}.
Proof.
  destruct res as [resp | e]; simpl; intros H; [| discriminate].
  exists resp. by inversion H.
Qed.

Lemma handle_reply_success json_Decode (r : io.Reply)
      (out : ibmcreds.getCredentialsOutput) :
  ibmcreds.handle_reply json_Decode r = inl out <->
  exists body, r = io.Response 200 body /\ json_Decode body = inl out.
Proof.
  split.
  - destruct r as [terr | status body]; simpl; [discriminate |].
    case_bool_decide as Hs; [discriminate |].
    destruct (json_Decode body) as [o | e] eqn:Hdec; [| discriminate].
    intros [= <-]. exists body. split; [| done].
    f_equal. destruct (decide (status = 200)); [done | by destruct Hs].
  - intros (body & -> & Hdec). simpl. by rewrite Hdec.
Qed.

(** ** [time.Unix] where it does not wrap *)

Lemma wrap64_small (z : Z) :
  -9223372036854775808 <= z < 9223372036854775808 -> time.wrap64 z = z.
Proof.
  intros Hz. unfold time.wrap64. rewrite Z.mod_small; lia.
Qed.

Lemma Unix_exact (sec : Z) :
  -9223372036854775808 <= sec <= 9223371974719179007 ->
  time.Unix sec 0 = sec * 1000000000.
Proof.
  intros Hsec. unfold time.Unix, time.unixToInternal, time.Second. simpl.
  rewrite wrap64_small by lia. lia.
Qed.

Example Unix_last_exact_second :
  time.Unix 9223371974719179007 0 = 9223371974719179007 * 1000000000.
Proof. reflexivity. Qed.

(** One second later the [int64] sum wraps: the instant is 2^63 seconds
    before year 1, and so before every reading of a clock. *)
Example Unix_first_wrapped_second :
  time.Unix 9223371974719179008 0 =
  (-9223372036854775808 - 62135596800) * 1000000000.
Proof. reflexivity. Qed.

Example Unix_carries_nanoseconds :
  time.Unix 1 1500000000 = 2500000000 /\ time.Unix 0 (-1) = -1.
Proof. split; reflexivity. Qed.

(** ** Expiry after a successful [Retrieve] *)

(** C1, counterexample. The property as the spec words it fails on two
    inputs. A token response whose expiration (500 s) minus the window (10 s)
    is already past when [Retrieve] returns (at 1000 s): [IsExpired] is true
    at once. A negative window (-10 s) with expiration 100 s: at 105 s, which
    is before [E - W] = 110 s, [IsExpired] is true. *)
Lemma expiry_as_stated_fails :
  ~ expiry_as_stated sample.decode
      (sample.with_window sample.provider (10 * time.Second))
      (sample.always (io.Response 200 (sample.token_body "tok" 500)))
      (time.Unix 1000 0)
  /\
  ~ expiry_as_stated sample.decode
      (sample.with_window sample.provider (-10 * time.Second))
      (sample.always (io.Response 200 (sample.token_body "tok" 100)))
      (time.Unix 105 0).
Proof.
  split; intros H.
  - destruct (H _ _ _ _ eq_refl eq_refl) as (_ & _ & Hnow).
    vm_compute in Hnow. discriminate.
  - destruct (H _ _ _ _ eq_refl eq_refl) as (Hbefore & _ & _).
    specialize (Hbefore (time.Unix 105 0) eq_refl).
    vm_compute in Hbefore. discriminate.
Qed.

(** C1, as amended. After a successful [Retrieve], the endpoint answered
    200 with a body that decodes to a response [resp], and with [E] the
    instant [time.Unix] makes of the expiration of [resp], [IsExpired] at an
    instant [now] is false exactly when [now] is before the threshold, which
    is [E - W] for a window [W > 0] and [E] itself for a window of 0 or
    less; so it is false right after [Retrieve] only if [Retrieve] returned
    before the threshold. [E] is the expiration in seconds times 10^9
    nanoseconds as long as the expiration is at most 9223371974719179007;
    above that [time.Unix] wraps and [E] is an instant in the far past. *)
Theorem Retrieve_then_IsExpired json_Decode (p : ibmcreds.Provider)
        (net : io.Network) (v : credentials.Value)
        (p' : ibmcreds.Provider) (net' : io.Network) :
  ibmcreds.run_Retrieve json_Decode p net = ((v, None), p', net') ->
  exists body resp,
    io.reply_to net (ibmcreds.IAMEndpointURL p) (ibmcreds.form p) =
      io.Response 200 body /\
    json_Decode body = inl resp /\
    let E := time.Unix (ibmcreds.Expiration resp) 0 in
    let W := ibmcreds.ExpiryWindow p in
    let threshold := if 0 <? W then E - W else E in
    (forall now,
       (now < threshold -> ibmcreds.IsExpired p' now = false) /\
       (threshold <= now -> ibmcreds.IsExpired p' now = true)) /\
    (-9223372036854775808 <= ibmcreds.Expiration resp <= 9223371974719179007 ->
     E = ibmcreds.Expiration resp * 1000000000).
Proof.
  rewrite run_Retrieve_eq. intros H.
  injection H as Hfin _.
  apply finish_success in Hfin as (resp & Hres & -> & _).
  apply handle_reply_success in Hres as (body & Hreply & Hdec).
  exists body, resp. split; [exact Hreply |]. split; [exact Hdec |].
  intros E W threshold. split; [| apply Unix_exact].
  intros now.
  unfold ibmcreds.IsExpired, credentials.IsExpired. simpl.
  unfold time.Add. fold E W.
  replace (if 0 <? W then E + - W else E) with threshold
    by (unfold threshold; destruct (0 <? W); lia).
  split; intros Hnow.
  - apply negb_false_iff, Z.ltb_lt. exact Hnow.
  - apply negb_true_iff, Z.ltb_ge. exact Hnow.
Qed.

Lemma Retrieve_then_IsExpired_witness :
  exists body resp,
    io.reply_to
      (sample.always (io.Response 200 (sample.token_body "tok" 500)))
      (ibmcreds.IAMEndpointURL
         (sample.with_window sample.provider (10 * time.Second)))
      (ibmcreds.form
         (sample.with_window sample.provider (10 * time.Second))) =
      io.Response 200 body /\
    sample.decode body = inl resp /\
    let E := time.Unix (ibmcreds.Expiration resp) 0 in
    let W := 10 * time.Second in
    let threshold := if 0 <? W then E - W else E in
    (forall now,
       (now < threshold ->
        ibmcreds.IsExpired
          (snd (fst (ibmcreds.run_Retrieve sample.decode
             (sample.with_window sample.provider (10 * time.Second))
             (sample.always (io.Response 200 (sample.token_body "tok" 500))))))
          now = false) /\
       (threshold <= now ->
        ibmcreds.IsExpired
          (snd (fst (ibmcreds.run_Retrieve sample.decode
             (sample.with_window sample.provider (10 * time.Second))
             (sample.always (io.Response 200 (sample.token_body "tok" 500))))))
          now = true)) /\
    (-9223372036854775808 <= ibmcreds.Expiration resp <= 9223371974719179007 ->
     E = ibmcreds.Expiration resp * 1000000000).
Proof.
  eapply (Retrieve_then_IsExpired sample.decode
            (sample.with_window sample.provider (10 * time.Second))
            (sample.always (io.Response 200 (sample.token_body "tok" 500)))).
  reflexivity.
Defined.

(** ** Errors of [Retrieve] *)

(** C2, counterexample. On a 200 response whose body is not JSON, the error
    [Retrieve] returns is not the decoder's error but an SDK error with code
    CredentialsEndpointError around it. *)
Lemma decode_error_as_stated_fails :
  ~ decode_error_as_stated sample.decode sample.provider
      (sample.always (io.Response 200 "not json")).
Proof.
  intros H. specialize (H _ _ eq_refl eq_refl). discriminate H.
Qed.

(** C2, as amended. When the endpoint answers 200 with a body the decoder
    rejects with error [e], [Retrieve] fails with the SDK error of code
    CredentialsEndpointError and message "failed to load credentials" whose
    original error is [e], returns a value that has only the provider name,
    and leaves the provider as it was. *)
Theorem Retrieve_decode_error json_Decode (p : ibmcreds.Provider)
        (net : io.Network) (body : string) (e : error) :
  io.reply_to net (ibmcreds.IAMEndpointURL p) (ibmcreds.form p) =
    io.Response 200 body ->
  json_Decode body = inr e ->
  fst (ibmcreds.run_Retrieve json_Decode p net) =
    (({| credentials.ServiceInstanceID := "";
         credentials.SessionToken := "";
         credentials.ProviderName := "IBMIAMProvider" |},
      Some (awserr_New "CredentialsEndpointError"
                       "failed to load credentials" e)), p).
Proof.
  intros Hreply Hdec. rewrite run_Retrieve_eq. simpl fst.
  rewrite Hreply. simpl. by rewrite Hdec.
Qed.

Lemma Retrieve_decode_error_witness :
  fst (ibmcreds.run_Retrieve sample.decode sample.provider
         (sample.always (io.Response 200 "not json"))) =
    (({| credentials.ServiceInstanceID := "";
         credentials.SessionToken := "";
         credentials.ProviderName := "IBMIAMProvider" |},
      Some (awserr_New "CredentialsEndpointError"
              "failed to load credentials"
              (json_SyntaxError
                 "invalid character 'o' in literal null (expecting 'u')" 2))),
     sample.provider).
Proof.
  apply (Retrieve_decode_error sample.decode sample.provider
           (sample.always (io.Response 200 "not json")) "not json");
    reflexivity.
Defined.

(** C6. When the transport fails or the endpoint answers with a status other
    than 200, [Retrieve] returns an error of code CredentialsEndpointError
    (around the transport's error, or around the text naming the status) and
    a value whose session token is empty. *)
Theorem Retrieve_endpoint_error json_Decode (p : ibmcreds.Provider)
        (net : io.Network) :
  endpoint_failed
    (io.reply_to net (ibmcreds.IAMEndpointURL p) (ibmcreds.form p)) = true ->
  exists v err,
    fst (fst (ibmcreds.run_Retrieve json_Decode p net)) = (v, Some err) /\
    err = awserr_New "CredentialsEndpointError" "failed to load credentials"
            (endpoint_cause
               (io.reply_to net (ibmcreds.IAMEndpointURL p) (ibmcreds.form p))) /\
    awserr.Code err = Some "CredentialsEndpointError" /\
    credentials.SessionToken v = "".
Proof.
  intros Hfail. rewrite run_Retrieve_eq. simpl fst.
  destruct (io.reply_to net _ _) as [terr | status body]; simpl in *.
  - eauto 6.
  - rewrite Hfail. simpl. eauto 6.
Qed.

Lemma Retrieve_endpoint_error_witness :
  exists v err,
    fst (fst (ibmcreds.run_Retrieve sample.decode sample.provider
                (sample.always (io.Response 500 "")))) = (v, Some err) /\
    err = awserr_New "CredentialsEndpointError" "failed to load credentials"
            (errorString "server returned status 500 instead of 200") /\
    awserr.Code err = Some "CredentialsEndpointError" /\
    credentials.SessionToken v = "".
Proof.
  apply (Retrieve_endpoint_error sample.decode sample.provider
           (sample.always (io.Response 500 ""))).
  reflexivity.
Defined.

(** C9. A [Retrieve] that fails leaves the provider, and with it the cached
    expiration, as it was: [IsExpired] answers after it as before it. *)
Theorem Retrieve_failure_keeps_expiration json_Decode (p : ibmcreds.Provider)
        (net : io.Network) (v : credentials.Value) (err : error)
        (p' : ibmcreds.Provider) (net' : io.Network) :
  ibmcreds.run_Retrieve json_Decode p net = ((v, Some err), p', net') ->
  ibmcreds.Expiry p' = ibmcreds.Expiry p /\
  forall now, ibmcreds.IsExpired p' now = ibmcreds.IsExpired p now.
Proof.
  rewrite run_Retrieve_eq. intros H. injection H as Hfin _.
  apply finish_error in Hfin as (e & _ & -> & _). done.
Qed.

Lemma Retrieve_failure_keeps_expiration_witness :
  ibmcreds.Expiry
    (snd (fst (ibmcreds.run_Retrieve sample.decode sample.provider
                 (sample.always (io.Response 500 ""))))) =
  ibmcreds.Expiry sample.provider /\
  forall now,
    ibmcreds.IsExpired
      (snd (fst (ibmcreds.run_Retrieve sample.decode sample.provider
                   (sample.always (io.Response 500 ""))))) now =
    ibmcreds.IsExpired sample.provider now.
Proof.
  eapply (Retrieve_failure_keeps_expiration sample.decode sample.provider
            (sample.always (io.Response 500 ""))).
  reflexivity.
Defined.

(** C10. The value [Retrieve] returns has the provider name
    "IBMIAMProvider", with or without an error; when there is no error, the
    endpoint answered 200 with a body that the decoder turns into a
    response, and the value also has the provider's service-instance id and,
    as session token, the access token of that response. *)
Theorem Retrieve_value json_Decode (p : ibmcreds.Provider)
        (net : io.Network) (v : credentials.Value) (err : option error)
        (p' : ibmcreds.Provider) (net' : io.Network) :
  ibmcreds.run_Retrieve json_Decode p net = ((v, err), p', net') ->
  credentials.ProviderName v = "IBMIAMProvider" /\
  (err = None ->
   exists body resp,
     io.reply_to net (ibmcreds.IAMEndpointURL p) (ibmcreds.form p) =
       io.Response 200 body /\
     json_Decode body = inl resp /\
     credentials.ServiceInstanceID v = ibmcreds.serviceInstanceID p /\
     credentials.SessionToken v = ibmcreds.AccessToken resp).
Proof.
  rewrite run_Retrieve_eq. intros H. injection H as Hfin _.
  destruct err as [e |].
  - apply finish_error in Hfin as (? & _ & _ & -> & _). done.
  - apply finish_success in Hfin as (resp & Hres & _ & ->).
    apply handle_reply_success in Hres as (body & Hreply & Hdec).
    split; [done |]. intros _. by exists body, resp.
Qed.

Lemma Retrieve_value_witness :
  credentials.ProviderName
    (fst (fst (fst (ibmcreds.run_Retrieve sample.decode sample.provider
       (sample.always (io.Response 200 (sample.token_body "tok" 500))))))) =
  "IBMIAMProvider" /\
  (@None error = None ->
   exists body resp,
     io.reply_to
       (sample.always (io.Response 200 (sample.token_body "tok" 500)))
       (ibmcreds.IAMEndpointURL sample.provider)
       (ibmcreds.form sample.provider) = io.Response 200 body /\
     sample.decode body = inl resp /\
     credentials.ServiceInstanceID
       (fst (fst (fst (ibmcreds.run_Retrieve sample.decode sample.provider
          (sample.always (io.Response 200 (sample.token_body "tok" 500))))))) =
     ibmcreds.serviceInstanceID sample.provider /\
     credentials.SessionToken
       (fst (fst (fst (ibmcreds.run_Retrieve sample.decode sample.provider
          (sample.always (io.Response 200 (sample.token_body "tok" 500))))))) =
     ibmcreds.AccessToken resp).
Proof.
  eapply (Retrieve_value sample.decode sample.provider
            (sample.always (io.Response 200 (sample.token_body "tok" 500)))).
  reflexivity.
Defined.

(** C5. Every [Retrieve] posts exactly one form. Its URL is the configured
    endpoint followed by "/oidc/token" when that endpoint is not empty, and
    the default endpoint when it is; its fields are [grant_type],
    [response_type] and [apikey], the last with the configured API key. *)
Theorem Retrieve_posts_form json_Decode (p : ibmcreds.Provider)
        (net : io.Network) :
  io.posted (snd (ibmcreds.run_Retrieve json_Decode p net)) =
  io.posted net ++
  [(if bool_decide (ibmcreds.IAMEndpoint p = "")
    then "https://iam.bluemix.net/oidc/token"
    else ibmcreds.IAMEndpoint p +:+ "/oidc/token",
    list_to_map
      [("grant_type", ["urn:ibm:params:oauth:grant-type:apikey"]);
       ("response_type", ["cloud_iam"]);
       ("apikey", [ibmcreds.apiKey p])])].
Proof.
  rewrite run_Retrieve_eq. simpl. f_equal. f_equal. f_equal.
  unfold ibmcreds.IAMEndpointURL.
  destruct (decide (ibmcreds.IAMEndpoint p = "")) as [Heq | Hne].
  - rewrite bool_decide_eq_false_2 by (intros Hc; by apply Hc).
    by rewrite bool_decide_eq_true_2.
  - rewrite bool_decide_eq_true_2 by done.
    by rewrite bool_decide_eq_false_2.
Qed.

(** ** The signer *)

Section SignerProperties.

Context {Credentials : Type}.
Variable Credentials_Get :
  Credentials -> (credentials.Value * option error) * Credentials.

Lemma Sign_success (s : ibm.Signer) (r r' : http.Request)
      (op : ibm.Operation) (c' : Credentials) :
  ibm.Sign Credentials_Get s r op = ((None, r'), c') ->
  exists creds,
    Credentials_Get (ibm.Signer_Credentials s) = ((creds, None), c') /\
    let r1 := http.Request_Header_Add r "Authorization"
                ("Bearer " +:+ credentials.SessionToken creds) in
    r' = if named_bucket_op op
         then http.Request_Header_Add r1 "ibm-service-instance-id"
                (credentials.ServiceInstanceID creds)
         else r1.
Proof.
  unfold ibm.Sign.
  destruct (Credentials_Get _) as [[creds [e |]] c]; intros H;
    [discriminate |].
  injection H as <- <-. by exists creds.
Qed.

(** C3. When [Sign] succeeds, the values of the ibm-service-instance-id
    header are those the request had, followed by the credential's
    service-instance id if the operation is named ListBuckets or
    CreateBucket, and unchanged otherwise: the header is added exactly for
    these two names. *)
Theorem Sign_instance_id_header (s : ibm.Signer) (r r' : http.Request)
        (op : ibm.Operation) (c' : Credentials) :
  ibm.Sign Credentials_Get s r op = ((None, r'), c') ->
  exists creds,
    Credentials_Get (ibm.Signer_Credentials s) = ((creds, None), c') /\
    http.Values (http.Header r') "ibm-service-instance-id" =
      http.Values (http.Header r) "ibm-service-instance-id" ++
      (if bool_decide (ibm.Name op = "ListBuckets" \/
                       ibm.Name op = "CreateBucket")
       then [credentials.ServiceInstanceID creds] else []) /\
    (http.Values (http.Header r') "ibm-service-instance-id" <>
     http.Values (http.Header r) "ibm-service-instance-id" <->
     ibm.Name op = "ListBuckets" \/ ibm.Name op = "CreateBucket").
Proof.
  intros H. apply Sign_success in H as (creds & Hget & ->).
  exists creds. split; [exact Hget |].
  assert (Hauth : forall h v,
             http.Values (http.Add h "Authorization" v)
               "ibm-service-instance-id" =
             http.Values h "ibm-service-instance-id")
    by (intros; by apply Values_Add_other).
  unfold named_bucket_op.
  destruct (decide (ibm.Name op = "ListBuckets")) as [Hl | Hl];
    [| destruct (decide (ibm.Name op = "CreateBucket")) as [Hc | Hc]].
  - rewrite (bool_decide_eq_true_2 _ Hl). simpl.
    rewrite bool_decide_eq_true_2 by tauto.
    rewrite Values_Add_same, Hauth.
    split; [done |]. split; [tauto |]. intros _. apply app_singleton_neq.
  - rewrite (bool_decide_eq_false_2 _ Hl), (bool_decide_eq_true_2 _ Hc).
    simpl. rewrite bool_decide_eq_true_2 by tauto.
    rewrite Values_Add_same, Hauth.
    split; [done |]. split; [tauto |]. intros _. apply app_singleton_neq.
  - rewrite (bool_decide_eq_false_2 _ Hl), (bool_decide_eq_false_2 _ Hc).
    simpl. rewrite bool_decide_eq_false_2 by tauto.
    rewrite Hauth, app_nil_r.
    split; [done |]. split; [done | tauto].
Qed.

(** C4. When the credentials are retrieved with session token [T], [Sign]
    returns no error and the request has, after the values of the
    Authorization header it had, the value "Bearer " followed by [T]. *)
Theorem Sign_adds_bearer (s : ibm.Signer) (r : http.Request)
        (op : ibm.Operation) (creds : credentials.Value)
        (c' : Credentials) :
  Credentials_Get (ibm.Signer_Credentials s) = ((creds, None), c') ->
  exists r',
    ibm.Sign Credentials_Get s r op = ((None, r'), c') /\
    http.Values (http.Header r') "Authorization" =
      http.Values (http.Header r) "Authorization" ++
      ["Bearer " +:+ credentials.SessionToken creds] /\
    (http.Values (http.Header r) "Authorization" = [] ->
     http.Get (http.Header r') "Authorization" =
       "Bearer " +:+ credentials.SessionToken creds).
Proof.
  intros Hget. unfold ibm.Sign. rewrite Hget.
  eexists. split; [reflexivity |].
  assert (Hval :
    http.Values
      (http.Header
         (if bool_decide (ibm.Name op = "ListBuckets") ||
             bool_decide (ibm.Name op = "CreateBucket")
          then http.Request_Header_Add
                 (http.Request_Header_Add r "Authorization"
                    ("Bearer " +:+ credentials.SessionToken creds))
                 "ibm-service-instance-id"
                 (credentials.ServiceInstanceID creds)
          else http.Request_Header_Add r "Authorization"
                 ("Bearer " +:+ credentials.SessionToken creds)))
      "Authorization" =
    http.Values (http.Header r) "Authorization" ++
    ["Bearer " +:+ credentials.SessionToken creds]).
  { destruct (_ || _); simpl.
    - rewrite Values_Add_other by done. apply Values_Add_same.
    - apply Values_Add_same. }
  split; [exact Hval |].
  intros Hnone. unfold http.Get. rewrite Hval, Hnone. reflexivity.
Qed.

(** C7. When retrieving the credentials fails with error [E], [Sign]
    returns [E], and [SignRequest] stores [E] in the request's [Error]
    field and returns with the HTTP request as it was. *)
Theorem Sign_returns_retrieval_error (req : ibm.Request)
        (v : credentials.Value) (E : error) (c' : Credentials) :
  Credentials_Get (ibm.Config_Credentials req) = ((v, Some E), c') ->
  fst (fst (ibm.Sign Credentials_Get
              (ibm.NewSigner (ibm.Config_Credentials req))
              (ibm.HTTPRequest req) (ibm.Request_Operation req))) = Some E /\
  ibm.Error (ibm.SignRequest Credentials_Get req) = Some E /\
  ibm.HTTPRequest (ibm.SignRequest Credentials_Get req) =
    ibm.HTTPRequest req.
Proof.
  intros Hget. unfold ibm.SignRequest, ibm.Sign. simpl.
  rewrite Hget. done.
Qed.

(** C8. When retrieving the credentials fails, [Sign] returns the request
    as it received it: neither the Authorization header nor the
    ibm-service-instance-id header gets a value. *)
Theorem Sign_failure_keeps_request (s : ibm.Signer) (r : http.Request)
        (op : ibm.Operation) (v : credentials.Value) (E : error)
        (c' : Credentials) :
  Credentials_Get (ibm.Signer_Credentials s) = ((v, Some E), c') ->
  snd (fst (ibm.Sign Credentials_Get s r op)) = r.
Proof.
  intros Hget. unfold ibm.Sign. by rewrite Hget.
Qed.

End SignerProperties.

Lemma Sign_instance_id_header_witness :
  exists creds,
    sample.static sample.creds_ok = ((creds, None), sample.creds_ok) /\
    http.Values
      (http.Header
         (snd (fst (ibm.Sign sample.static (ibm.NewSigner sample.creds_ok)
                      sample.request (sample.op "CreateBucket")))))
      "ibm-service-instance-id" =
      http.Values (http.Header sample.request) "ibm-service-instance-id" ++
      (if bool_decide (ibm.Name (sample.op "CreateBucket") = "ListBuckets" \/
                       ibm.Name (sample.op "CreateBucket") = "CreateBucket")
       then [credentials.ServiceInstanceID creds] else []) /\
    (http.Values
       (http.Header
          (snd (fst (ibm.Sign sample.static (ibm.NewSigner sample.creds_ok)
                       sample.request (sample.op "CreateBucket")))))
       "ibm-service-instance-id" <>
     http.Values (http.Header sample.request) "ibm-service-instance-id" <->
     ibm.Name (sample.op "CreateBucket") = "ListBuckets" \/
     ibm.Name (sample.op "CreateBucket") = "CreateBucket").
Proof.
  apply (Sign_instance_id_header sample.static
           (ibm.NewSigner sample.creds_ok) sample.request _
           (sample.op "CreateBucket") sample.creds_ok).
  reflexivity.
Defined.

Lemma Sign_adds_bearer_witness :
  exists r',
    ibm.Sign sample.static (ibm.NewSigner sample.creds_ok) sample.request
      (sample.op "GetObject") = ((None, r'), sample.creds_ok) /\
    http.Values (http.Header r') "Authorization" =
      http.Values (http.Header sample.request) "Authorization" ++
      ["Bearer " +:+ "tok"] /\
    (http.Values (http.Header sample.request) "Authorization" = [] ->
     http.Get (http.Header r') "Authorization" = "Bearer " +:+ "tok").
Proof.
  apply (Sign_adds_bearer sample.static (ibm.NewSigner sample.creds_ok)
           sample.request (sample.op "GetObject")
           (fst sample.creds_ok) sample.creds_ok).
  reflexivity.
Defined.

Lemma Sign_returns_retrieval_error_witness :
  fst (fst (ibm.Sign sample.static (ibm.NewSigner sample.creds_failed)
              sample.request (sample.op "CreateBucket"))) =
    Some (awserr_New "CredentialsEndpointError" "failed to load credentials"
                     (fmt.Errorf_status 500)) /\
  ibm.Error (ibm.SignRequest sample.static
               (sample.sdk_request sample.creds_failed "CreateBucket")) =
    Some (awserr_New "CredentialsEndpointError" "failed to load credentials"
                     (fmt.Errorf_status 500)) /\
  ibm.HTTPRequest (ibm.SignRequest sample.static
                     (sample.sdk_request sample.creds_failed "CreateBucket")) =
    sample.request.
Proof.
  apply (Sign_returns_retrieval_error sample.static
           (sample.sdk_request sample.creds_failed "CreateBucket")
           (fst sample.creds_failed) _ sample.creds_failed).
  reflexivity.
Defined.

Lemma Sign_failure_keeps_request_witness :
  snd (fst (ibm.Sign sample.static (ibm.NewSigner sample.creds_failed)
              sample.request (sample.op "CreateBucket"))) = sample.request.
Proof.
  apply (Sign_failure_keeps_request sample.static
           (ibm.NewSigner sample.creds_failed) sample.request
           (sample.op "CreateBucket") (fst sample.creds_failed)
           (awserr_New "CredentialsEndpointError" "failed to load credentials"
                       (fmt.Errorf_status 500))
           sample.creds_failed).
  reflexivity.
Defined.

(** ** The signer on concrete requests *)

Example Sign_CreateBucket_headers :
  let r' := snd (fst (ibm.Sign sample.static (ibm.NewSigner sample.creds_ok)
                        sample.request (sample.op "CreateBucket"))) in
  http.Get (http.Header r') "Authorization" = "Bearer tok" /\
  http.Get (http.Header r') "ibm-service-instance-id" = "sid" /\
  http.Get (http.Header r') "Content-Type" = "text/plain".
Proof. vm_compute. done. Qed.

Example Sign_GetObject_headers :
  let r' := snd (fst (ibm.Sign sample.static (ibm.NewSigner sample.creds_ok)
                        sample.request (sample.op "GetObject"))) in
  http.Get (http.Header r') "Authorization" = "Bearer tok" /\
  http.Values (http.Header r') "ibm-service-instance-id" = [].
Proof. vm_compute. done. Qed.

Example Retrieve_custom_endpoint :
  io.posted (snd (ibmcreds.run_Retrieve sample.decode sample.provider_custom
                    (sample.always (io.Response 200 "{}")))) =
  [("https://iam.example.test/oidc/token",
    list_to_map
      [("grant_type", ["urn:ibm:params:oauth:grant-type:apikey"]);
       ("response_type", ["cloud_iam"]);
       ("apikey", ["key"])])].
Proof. reflexivity. Qed.

Example fresh_provider_is_expired :
  ibmcreds.IsExpired sample.provider (time.Unix 0 0) = true.
Proof. reflexivity. Qed.

(** * Further properties of the signer *)

Section SignerHeaders.

Context {Credentials : Type}.
Variable Credentials_Get :
  Credentials -> (credentials.Value * option error) * Credentials.

(** The request [Sign] builds from credentials [creds]. *)
Lemma Sign_on_credentials (s : ibm.Signer) (r : http.Request)
      (op : ibm.Operation) (creds : credentials.Value) (c' : Credentials) :
  Credentials_Get (ibm.Signer_Credentials s) = ((creds, None), c') ->
  ibm.Sign Credentials_Get s r op =
  ((None,
    if named_bucket_op op
    then http.Request_Header_Add
           (http.Request_Header_Add r "Authorization"
              ("Bearer " +:+ credentials.SessionToken creds))
           "ibm-service-instance-id" (credentials.ServiceInstanceID creds)
    else http.Request_Header_Add r "Authorization"
           ("Bearer " +:+ credentials.SessionToken creds)), c').
Proof. intros Hget. unfold ibm.Sign. by rewrite Hget. Qed.

Lemma signed_Authorization (r : http.Request) (op : ibm.Operation)
      (tok sid : string) :
  http.Values
    (http.Header
       (if named_bucket_op op
        then http.Request_Header_Add
               (http.Request_Header_Add r "Authorization" tok)
               "ibm-service-instance-id" sid
        else http.Request_Header_Add r "Authorization" tok))
    "Authorization" =
  http.Values (http.Header r) "Authorization" ++ [tok].
Proof.
  destruct (named_bucket_op op); simpl.
  - rewrite Values_Add_other by done. apply Values_Add_same.
  - apply Values_Add_same.
Qed.

Lemma signed_other_key (r : http.Request) (op : ibm.Operation)
      (tok sid key : string) :
  http.CanonicalMIMEHeaderKey key ≠ "Authorization" ->
  http.CanonicalMIMEHeaderKey key ≠ "Ibm-Service-Instance-Id" ->
  http.Values
    (http.Header
       (if named_bucket_op op
        then http.Request_Header_Add
               (http.Request_Header_Add r "Authorization" tok)
               "ibm-service-instance-id" sid
        else http.Request_Header_Add r "Authorization" tok))
    key =
  http.Values (http.Header r) key.
Proof.
  intros Ha Hi.
  assert (Ha' : http.CanonicalMIMEHeaderKey "Authorization" ≠
                http.CanonicalMIMEHeaderKey key)
    by (intros Heq; apply Ha; symmetry; exact Heq).
  assert (Hi' : http.CanonicalMIMEHeaderKey "ibm-service-instance-id" ≠
                http.CanonicalMIMEHeaderKey key)
    by (intros Heq; apply Hi; symmetry; exact Heq).
  destruct (named_bucket_op op); simpl.
  - rewrite (Values_Add_other _ _ _ _ Hi'). apply (Values_Add_other _ _ _ _ Ha').
  - apply (Values_Add_other _ _ _ _ Ha').
Qed.

(** X1. Whatever [Credentials.Get] answers, [Sign] leaves the method, the
    URL and every header other than Authorization and
    ibm-service-instance-id as they were. *)
Theorem Sign_keeps_other_headers (s : ibm.Signer) (r : http.Request)
        (op : ibm.Operation) (key : string) :
  http.CanonicalMIMEHeaderKey key ≠ "Authorization" ->
  http.CanonicalMIMEHeaderKey key ≠ "Ibm-Service-Instance-Id" ->
  let r' := snd (fst (ibm.Sign Credentials_Get s r op)) in
  http.Values (http.Header r') key = http.Values (http.Header r) key /\
  http.Method r' = http.Method r /\
  http.URL r' = http.URL r.
Proof.
  intros Ha Hi.
  destruct (Credentials_Get (ibm.Signer_Credentials s))
    as [[creds [e |]] c] eqn:Hget.
  - unfold ibm.Sign. rewrite Hget. done.
  - rewrite (Sign_on_credentials _ _ _ _ _ Hget). simpl.
    split; [by apply signed_other_key |].
    by destruct (named_bucket_op op).
Qed.

(** X2. [Sign] appends: when the request already has Authorization values,
    they stay in front of the bearer token, and [Header.Get] still returns
    the first of them after [Sign]. *)
Theorem Sign_keeps_first_authorization (s : ibm.Signer) (r r' : http.Request)
        (op : ibm.Operation) (c' : Credentials)
        (first : string) (rest : list string) :
  ibm.Sign Credentials_Get s r op = ((None, r'), c') ->
  http.Values (http.Header r) "Authorization" = first :: rest ->
  http.Get (http.Header r') "Authorization" = first /\
  exists bearer,
    http.Values (http.Header r') "Authorization" = first :: rest ++ [bearer].
Proof.
  intros Hsign Hold.
  apply Sign_success in Hsign as (creds & _ & ->).
  unfold http.Get. cbv zeta. rewrite signed_Authorization, Hold.
  split; [done | by eexists].
Qed.

(** X3. Signing is not idempotent: a second successful [Sign] of the same
    request adds a second bearer value after the first. *)
Theorem Sign_twice_adds_two (s : ibm.Signer) (r : http.Request)
        (op1 op2 : ibm.Operation) (creds1 creds2 : credentials.Value)
        (c1 c2 : Credentials) :
  Credentials_Get (ibm.Signer_Credentials s) = ((creds1, None), c1) ->
  Credentials_Get c1 = ((creds2, None), c2) ->
  let r1 := snd (fst (ibm.Sign Credentials_Get s r op1)) in
  let r2 := snd (fst (ibm.Sign Credentials_Get (ibm.NewSigner c1) r1 op2)) in
  http.Values (http.Header r2) "Authorization" =
    http.Values (http.Header r) "Authorization" ++
    ["Bearer " +:+ credentials.SessionToken creds1;
     "Bearer " +:+ credentials.SessionToken creds2].
Proof.
  intros H1 H2 r1 r2. subst r2 r1.
  rewrite (Sign_on_credentials _ _ _ _ _ H1). cbn [fst snd].
  rewrite (Sign_on_credentials (ibm.NewSigner c1) _ _ creds2 c2 H2).
  cbn [fst snd].
  rewrite !signed_Authorization. by rewrite <- app_assoc.
Qed.

(** X4. When the credentials are retrieved, [SignRequest] puts the bearer
    token on the HTTP request and leaves the request's [Error] and operation
    as they were: an error recorded earlier is neither cleared nor a reason
    not to sign. *)
Theorem SignRequest_success (req : ibm.Request) (creds : credentials.Value)
        (c' : Credentials) :
  Credentials_Get (ibm.Config_Credentials req) = ((creds, None), c') ->
  let req' := ibm.SignRequest Credentials_Get req in
  ibm.Error req' = ibm.Error req /\
  ibm.Request_Operation req' = ibm.Request_Operation req /\
  ibm.Config_Credentials req' = c' /\
  http.Values (http.Header (ibm.HTTPRequest req')) "Authorization" =
    http.Values (http.Header (ibm.HTTPRequest req)) "Authorization" ++
    ["Bearer " +:+ credentials.SessionToken creds].
Proof.
  intros Hget. unfold ibm.SignRequest.
  rewrite (Sign_on_credentials (ibm.NewSigner (ibm.Config_Credentials req))
             _ _ creds c' Hget).
  simpl. repeat split. apply signed_Authorization.
Qed.

End SignerHeaders.

Lemma signed_instance_id (r : http.Request) (op : ibm.Operation)
      (tok sid : string) :
  http.Values
    (http.Header
       (if named_bucket_op op
        then http.Request_Header_Add
               (http.Request_Header_Add r "Authorization" tok)
               "ibm-service-instance-id" sid
        else http.Request_Header_Add r "Authorization" tok))
    "ibm-service-instance-id" =
  http.Values (http.Header r) "ibm-service-instance-id" ++
  (if named_bucket_op op then [sid] else []).
Proof.
  destruct (named_bucket_op op); simpl.
  - rewrite Values_Add_same. f_equal. by apply Values_Add_other.
  - rewrite app_nil_r. by apply Values_Add_other.
Qed.

(** * Further properties of the provider *)

Lemma with_window_request (p : ibmcreds.Provider) (w : Z) :
  ibmcreds.IAMEndpointURL (sample.with_window p w) = ibmcreds.IAMEndpointURL p /\
  ibmcreds.form (sample.with_window p w) = ibmcreds.form p.
Proof. split; reflexivity. Qed.

(** X5. [Retrieve] never changes what the provider was configured with: the
    API key, the service-instance id, the endpoint and the expiry window are
    after the call what they were before it, on success and on failure. *)
Theorem Retrieve_keeps_configuration json_Decode (p : ibmcreds.Provider)
        (net : io.Network) :
  let p' := snd (fst (ibmcreds.run_Retrieve json_Decode p net)) in
  ibmcreds.apiKey p' = ibmcreds.apiKey p /\
  ibmcreds.serviceInstanceID p' = ibmcreds.serviceInstanceID p /\
  ibmcreds.IAMEndpoint p' = ibmcreds.IAMEndpoint p /\
  ibmcreds.ExpiryWindow p' = ibmcreds.ExpiryWindow p.
Proof.
  rewrite run_Retrieve_eq. cbn [fst snd].
  by destruct (ibmcreds.handle_reply _ _).
Qed.

(** X6. [Retrieve] returns no error exactly when the endpoint answered with
    status 200 and a body the decoder accepts; and whenever the endpoint
    answers 200 with a body that decodes to [out], [Retrieve] returns, with
    no error, the provider's service-instance id and the access token of
    [out]. *)
Theorem Retrieve_succeeds_iff json_Decode (p : ibmcreds.Provider)
        (net : io.Network) :
  (snd (fst (fst (ibmcreds.run_Retrieve json_Decode p net))) = None <->
   exists body out,
     io.reply_to net (ibmcreds.IAMEndpointURL p) (ibmcreds.form p) =
       io.Response 200 body /\
     json_Decode body = inl out) /\
  (forall body out,
     io.reply_to net (ibmcreds.IAMEndpointURL p) (ibmcreds.form p) =
       io.Response 200 body ->
     json_Decode body = inl out ->
     fst (fst (ibmcreds.run_Retrieve json_Decode p net)) =
       ({| credentials.ServiceInstanceID := ibmcreds.serviceInstanceID p;
           credentials.SessionToken := ibmcreds.AccessToken out;
           credentials.ProviderName := "IBMIAMProvider" |}, None)).
Proof.
  rewrite run_Retrieve_eq. cbn [fst snd]. split.
  - destruct (ibmcreds.handle_reply _ _) as [out | e] eqn:Hres; simpl.
    + split; [intros _ | done].
      apply handle_reply_success in Hres as (body & Hr & Hdec).
      by exists body, out.
    + split; [discriminate |].
      intros (body & out & Hr & Hdec).
      assert (Hok : ibmcreds.handle_reply json_Decode
                      (io.reply_to net (ibmcreds.IAMEndpointURL p)
                         (ibmcreds.form p)) = inl out)
        by (apply handle_reply_success; eauto).
      congruence.
  - intros body out Hr Hdec.
    rewrite Hr. simpl. by rewrite Hdec.
Qed.

(** X7. Every error of [Retrieve] has the same shape: code
    CredentialsEndpointError, message "failed to load credentials", and as
    original error the error [getCredentials] returned; the value beside it
    has the provider name and nothing else. *)
Theorem Retrieve_error_shape json_Decode (p : ibmcreds.Provider)
        (net : io.Network) (v : credentials.Value) (err : error)
        (p' : ibmcreds.Provider) (net' : io.Network) :
  ibmcreds.run_Retrieve json_Decode p net = ((v, Some err), p', net') ->
  exists e,
    fst (io.exec (ibmcreds.getCredentials json_Decode p) net) = inr e /\
    awserr.Code err = Some "CredentialsEndpointError" /\
    awserr.Message err = Some "failed to load credentials" /\
    awserr.OrigErr err = Some e /\
    v = {| credentials.ServiceInstanceID := "";
           credentials.SessionToken := "";
           credentials.ProviderName := "IBMIAMProvider" |}.
Proof.
  rewrite run_Retrieve_eq. intros H. injection H as Hfin _.
  apply finish_error in Hfin as (e & Hres & _ & -> & ->).
  exists e. by repeat split.
Qed.

(** X8. When the transport fails or the status is not 200, the body is not
    decoded: [Retrieve] returns the same whatever the decoder is. *)
Theorem Retrieve_failed_endpoint_skips_decoder decode1 decode2
        (p : ibmcreds.Provider) (net : io.Network) :
  endpoint_failed
    (io.reply_to net (ibmcreds.IAMEndpointURL p) (ibmcreds.form p)) = true ->
  ibmcreds.run_Retrieve decode1 p net = ibmcreds.run_Retrieve decode2 p net.
Proof.
  intros Hfail. rewrite !run_Retrieve_eq. f_equal. f_equal.
  destruct (io.reply_to net _ _) as [terr | status body]; simpl in *;
    [done |].
  by rewrite Hfail.
Qed.

(** X9. The provider keeps no token: each [Retrieve] posts again, and two
    calls in a row post the same URL and the same form, whatever the first
    reply was. *)
Theorem Retrieve_twice_posts_twice json_Decode (p p1 p2 : ibmcreds.Provider)
        (net net1 net2 : io.Network)
        (res1 res2 : credentials.Value * option error) :
  ibmcreds.run_Retrieve json_Decode p net = ((res1, p1), net1) ->
  ibmcreds.run_Retrieve json_Decode p1 net1 = ((res2, p2), net2) ->
  io.posted net2 =
    io.posted net ++
    [(ibmcreds.IAMEndpointURL p, ibmcreds.form p);
     (ibmcreds.IAMEndpointURL p, ibmcreds.form p)].
Proof.
  rewrite !run_Retrieve_eq. intros H1 H2.
  injection H1 as Hfin1 <-. injection H2 as _ <-. simpl.
  rewrite <- app_assoc. simpl.
  assert (Hp : ibmcreds.IAMEndpointURL p1 = ibmcreds.IAMEndpointURL p /\
               ibmcreds.form p1 = ibmcreds.form p).
  { destruct (ibmcreds.handle_reply _ _); simpl in Hfin1;
      injection Hfin1 as _ <-; done. }
  destruct Hp as [-> ->]. done.
Qed.

(** X10. Of two calls in a row, a successful second one decides alone: the
    provider is left as one successful [Retrieve] of the second response
    would leave the original provider. The expiration is that of
    [SetExpiration] as modelled in [credentials]. *)
Theorem Retrieve_twice_last_wins json_Decode (p p1 p2 : ibmcreds.Provider)
        (net net1 net2 : io.Network)
        (res1 : credentials.Value * option error) (v2 : credentials.Value) :
  ibmcreds.run_Retrieve json_Decode p net = ((res1, p1), net1) ->
  ibmcreds.run_Retrieve json_Decode p1 net1 = (((v2, None), p2), net2) ->
  exists resp2,
    ibmcreds.handle_reply json_Decode
      (io.reply_to net1 (ibmcreds.IAMEndpointURL p) (ibmcreds.form p)) =
      inl resp2 /\
    p2 = ibmcreds.SetExpiration p (time.Unix (ibmcreds.Expiration resp2) 0)
                                (ibmcreds.ExpiryWindow p) /\
    credentials.SessionToken v2 = ibmcreds.AccessToken resp2.
Proof.
  rewrite !run_Retrieve_eq. intros H1 H2.
  injection H1 as Hfin1 _. injection H2 as Hfin2 _.
  apply finish_success in Hfin2 as (resp2 & Hres2 & -> & ->).
  exists resp2.
  destruct (ibmcreds.handle_reply json_Decode
              (io.reply_to net (ibmcreds.IAMEndpointURL p) (ibmcreds.form p)));
    simpl in Hfin1; injection Hfin1 as _ <-; done.
Qed.

(** X11. A provider that has not retrieved anything counts as expired: from a
    fresh [NewProviderClient], whose [Expiry] is the zero value, [IsExpired]
    is true at every instant from the zero time on. [IsExpired] is the one
    modelled in [credentials]. *)
Theorem NewProviderClient_is_expired (apiKey serviceInstanceID iamEndpoint : string)
        (now : Z) :
  time.zero <= now ->
  ibmcreds.IsExpired
    (ibmcreds.NewProviderClient apiKey serviceInstanceID iamEndpoint) now = true.
Proof.
  intros Hnow. unfold ibmcreds.IsExpired, credentials.IsExpired. simpl.
  apply negb_true_iff, Z.ltb_ge. exact Hnow.
Qed.

(** X12. A positive expiry window [W] moves the moment [IsExpired] turns
    true earlier by [W]: after a successful [Retrieve] of the same response,
    the provider with window [W] is expired at [now] exactly when the
    provider with window 0 is expired at [now + W]. The expiry is the one
    modelled in [credentials]. *)
Theorem window_moves_expiry_earlier json_Decode (p : ibmcreds.Provider)
        (net : io.Network) (W now : Z) :
  0 < W ->
  snd (fst (fst (ibmcreds.run_Retrieve json_Decode p net))) = None ->
  ibmcreds.IsExpired
    (snd (fst (ibmcreds.run_Retrieve json_Decode (sample.with_window p W) net)))
    now =
  ibmcreds.IsExpired
    (snd (fst (ibmcreds.run_Retrieve json_Decode (sample.with_window p 0) net)))
    (now + W).
Proof.
  intros HW. rewrite !run_Retrieve_eq. cbn [fst snd].
  destruct (with_window_request p W) as [-> ->].
  destruct (with_window_request p 0) as [-> ->].
  destruct (ibmcreds.handle_reply _ _) as [resp | e]; simpl; [| discriminate].
  intros _. unfold ibmcreds.IsExpired, credentials.IsExpired, time.Add. simpl.
  apply Z.ltb_lt in HW as HW'. rewrite HW'. f_equal.
  apply eq_iff_eq_true. rewrite !Z.ltb_lt. unfold time.Add. lia.
Qed.

(** X13. The signer and the provider together: when the endpoint answers 200
    with a body that decodes to [resp], and [Credentials.Get] hands on what
    [Retrieve] returned, [Sign] succeeds, the Authorization header gets
    "Bearer " followed by the access token of [resp], and for the two bucket
    operations the ibm-service-instance-id header gets the id the provider
    was configured with. *)
Theorem Sign_with_retrieved_credentials json_Decode (p : ibmcreds.Provider)
        (net : io.Network) (body : string)
        (resp : ibmcreds.getCredentialsOutput)
        {Credentials : Type}
        (Credentials_Get :
           Credentials -> (credentials.Value * option error) * Credentials)
        (s : ibm.Signer) (r : http.Request) (op : ibm.Operation)
        (c' : Credentials) :
  io.reply_to net (ibmcreds.IAMEndpointURL p) (ibmcreds.form p) =
    io.Response 200 body ->
  json_Decode body = inl resp ->
  Credentials_Get (ibm.Signer_Credentials s) =
    (fst (fst (ibmcreds.run_Retrieve json_Decode p net)), c') ->
  let r' := snd (fst (ibm.Sign Credentials_Get s r op)) in
  fst (fst (ibm.Sign Credentials_Get s r op)) = None /\
  http.Values (http.Header r') "Authorization" =
    http.Values (http.Header r) "Authorization" ++
    ["Bearer " +:+ ibmcreds.AccessToken resp] /\
  http.Values (http.Header r') "ibm-service-instance-id" =
    http.Values (http.Header r) "ibm-service-instance-id" ++
    (if named_bucket_op op then [ibmcreds.serviceInstanceID p] else []).
Proof.
  intros Hreply Hdec Hget.
  rewrite run_Retrieve_eq in Hget. cbn [fst snd] in Hget.
  rewrite Hreply in Hget. simpl in Hget. rewrite Hdec in Hget. simpl in Hget.
  rewrite (Sign_on_credentials _ _ _ _ _ _ Hget). cbn [fst snd].
  cbn [credentials.SessionToken credentials.ServiceInstanceID].
  split; [done |]. split.
  - apply signed_Authorization.
  - apply signed_instance_id.
Qed.

(** X14. A provider made by [NewProviderClient] has no expiry window: when
    the endpoint answers 200 with a body that decodes to [resp], whose
    expiration is at most 9223371974719179007 seconds, [Retrieve] returns
    without error the service-instance id the provider was made with and
    the access token of [resp], and the provider is then expired exactly
    from that expiration second on. The expiry is the one modelled in
    [credentials]. *)
Theorem NewProviderClient_Retrieve (apiKey serviceInstanceID iamEndpoint : string)
        json_Decode (net : io.Network) (body : string)
        (resp : ibmcreds.getCredentialsOutput) :
  let p := ibmcreds.NewProviderClient apiKey serviceInstanceID iamEndpoint in
  io.reply_to net (ibmcreds.IAMEndpointURL p) (ibmcreds.form p) =
    io.Response 200 body ->
  json_Decode body = inl resp ->
  -9223372036854775808 <= ibmcreds.Expiration resp <= 9223371974719179007 ->
  fst (fst (ibmcreds.run_Retrieve json_Decode p net)) =
    ({| credentials.ServiceInstanceID := serviceInstanceID;
        credentials.SessionToken := ibmcreds.AccessToken resp;
        credentials.ProviderName := "IBMIAMProvider" |}, None) /\
  forall now,
    ibmcreds.IsExpired
      (snd (fst (ibmcreds.run_Retrieve json_Decode p net))) now =
    negb (now <? ibmcreds.Expiration resp * 1000000000).
Proof.
  intros p Hreply Hdec Hrange.
  rewrite run_Retrieve_eq. cbn [fst snd].
  rewrite Hreply. simpl. rewrite Hdec. simpl.
  split; [done |].
  intros now. unfold ibmcreds.IsExpired, credentials.IsExpired. simpl.
  by rewrite (Unix_exact _ Hrange).
Qed.

(** * The further properties on concrete inputs *)

Lemma Sign_keeps_other_headers_witness :
  let r' := snd (fst (ibm.Sign sample.static (ibm.NewSigner sample.creds_ok)
                        sample.request (sample.op "CreateBucket"))) in
  http.Values (http.Header r') "content-type" =
    http.Values (http.Header sample.request) "content-type" /\
  http.Method r' = http.Method sample.request /\
  http.URL r' = http.URL sample.request.
Proof.
  apply (Sign_keeps_other_headers sample.static
           (ibm.NewSigner sample.creds_ok) sample.request
           (sample.op "CreateBucket") "content-type");
    vm_compute; discriminate.
Defined.

Lemma Sign_keeps_first_authorization_witness :
  http.Get
    (http.Header
       (snd (fst (ibm.Sign sample.static (ibm.NewSigner sample.creds_ok)
                    scenario.authorized_request (sample.op "GetObject")))))
    "Authorization" = "Basic dXNlcjpwdw==" /\
  exists bearer,
    http.Values
      (http.Header
         (snd (fst (ibm.Sign sample.static (ibm.NewSigner sample.creds_ok)
                      scenario.authorized_request (sample.op "GetObject")))))
      "Authorization" = "Basic dXNlcjpwdw==" :: [] ++ [bearer].
Proof.
  eapply (Sign_keeps_first_authorization sample.static
            (ibm.NewSigner sample.creds_ok) scenario.authorized_request _
            (sample.op "GetObject") sample.creds_ok);
    reflexivity.
Defined.

Lemma Sign_twice_adds_two_witness :
  let r1 := snd (fst (ibm.Sign sample.static (ibm.NewSigner sample.creds_ok)
                        sample.request (sample.op "GetObject"))) in
  let r2 := snd (fst (ibm.Sign sample.static (ibm.NewSigner sample.creds_ok)
                        r1 (sample.op "GetObject"))) in
  http.Values (http.Header r2) "Authorization" =
    http.Values (http.Header sample.request) "Authorization" ++
    ["Bearer " +:+ "tok"; "Bearer " +:+ "tok"].
Proof.
  apply (Sign_twice_adds_two sample.static (ibm.NewSigner sample.creds_ok)
           sample.request (sample.op "GetObject") (sample.op "GetObject")
           (fst sample.creds_ok) (fst sample.creds_ok)
           sample.creds_ok sample.creds_ok);
    reflexivity.
Defined.

Lemma SignRequest_success_witness :
  let req := sample.sdk_request sample.creds_ok "ListBuckets" in
  let req' := ibm.SignRequest sample.static req in
  ibm.Error req' = ibm.Error req /\
  ibm.Request_Operation req' = ibm.Request_Operation req /\
  ibm.Config_Credentials req' = sample.creds_ok /\
  http.Values (http.Header (ibm.HTTPRequest req')) "Authorization" =
    http.Values (http.Header (ibm.HTTPRequest req)) "Authorization" ++
    ["Bearer " +:+ "tok"].
Proof.
  apply (SignRequest_success sample.static
           (sample.sdk_request sample.creds_ok "ListBuckets")
           (fst sample.creds_ok) sample.creds_ok).
  reflexivity.
Defined.

Lemma Retrieve_error_shape_witness :
  exists e,
    fst (io.exec (ibmcreds.getCredentials sample.decode sample.provider)
           (sample.always (io.Response 200 "not json"))) = inr e /\
    awserr.Code
      (awserr_New "CredentialsEndpointError" "failed to load credentials"
         (json_SyntaxError
            "invalid character 'o' in literal null (expecting 'u')" 2)) =
      Some "CredentialsEndpointError" /\
    awserr.Message
      (awserr_New "CredentialsEndpointError" "failed to load credentials"
         (json_SyntaxError
            "invalid character 'o' in literal null (expecting 'u')" 2)) =
      Some "failed to load credentials" /\
    awserr.OrigErr
      (awserr_New "CredentialsEndpointError" "failed to load credentials"
         (json_SyntaxError
            "invalid character 'o' in literal null (expecting 'u')" 2)) =
      Some e /\
    fst (fst (fst (ibmcreds.run_Retrieve sample.decode sample.provider
                     (sample.always (io.Response 200 "not json"))))) =
      {| credentials.ServiceInstanceID := "";
         credentials.SessionToken := "";
         credentials.ProviderName := "IBMIAMProvider" |}.
Proof.
  eapply (Retrieve_error_shape sample.decode sample.provider
            (sample.always (io.Response 200 "not json"))).
  reflexivity.
Defined.

Lemma Retrieve_failed_endpoint_skips_decoder_witness :
  ibmcreds.run_Retrieve sample.decode sample.provider
    (sample.always (io.Response 404 "{}")) =
  ibmcreds.run_Retrieve (fun _ => inr (errorString "unused")) sample.provider
    (sample.always (io.Response 404 "{}")).
Proof.
  apply (Retrieve_failed_endpoint_skips_decoder sample.decode
           (fun _ => inr (errorString "unused")) sample.provider
           (sample.always (io.Response 404 "{}"))).
  reflexivity.
Defined.

Lemma Retrieve_twice_posts_twice_witness :
  io.posted
    (snd (ibmcreds.run_Retrieve sample.decode
            (snd (fst (ibmcreds.run_Retrieve sample.decode sample.provider
                         (scenario.first_then (scenario.token_reply 500)
                            (io.Response 500 "")))))
            (snd (ibmcreds.run_Retrieve sample.decode sample.provider
                    (scenario.first_then (scenario.token_reply 500)
                       (io.Response 500 "")))))) =
  [] ++
  [(ibmcreds.IAMEndpointURL sample.provider, ibmcreds.form sample.provider);
   (ibmcreds.IAMEndpointURL sample.provider, ibmcreds.form sample.provider)].
Proof.
  eapply (Retrieve_twice_posts_twice sample.decode sample.provider _ _
            (scenario.first_then (scenario.token_reply 500)
               (io.Response 500 "")));
    reflexivity.
Defined.

Lemma Retrieve_twice_last_wins_witness :
  exists resp2,
    ibmcreds.handle_reply sample.decode
      (io.reply_to
         (snd (ibmcreds.run_Retrieve sample.decode sample.provider
                 (scenario.first_then (io.Response 500 "")
                    (scenario.token_reply 500))))
         (ibmcreds.IAMEndpointURL sample.provider)
         (ibmcreds.form sample.provider)) = inl resp2 /\
    snd (fst (ibmcreds.run_Retrieve sample.decode
                (snd (fst (ibmcreds.run_Retrieve sample.decode sample.provider
                             (scenario.first_then (io.Response 500 "")
                                (scenario.token_reply 500)))))
                (snd (ibmcreds.run_Retrieve sample.decode sample.provider
                        (scenario.first_then (io.Response 500 "")
                           (scenario.token_reply 500)))))) =
      ibmcreds.SetExpiration sample.provider
        (time.Unix (ibmcreds.Expiration resp2) 0)
        (ibmcreds.ExpiryWindow sample.provider) /\
    credentials.SessionToken (fst sample.creds_ok) =
      ibmcreds.AccessToken resp2.
Proof.
  eapply (Retrieve_twice_last_wins sample.decode sample.provider _ _
            (scenario.first_then (io.Response 500 "")
               (scenario.token_reply 500)));
    reflexivity.
Defined.

Lemma NewProviderClient_is_expired_witness :
  ibmcreds.IsExpired (ibmcreds.NewProviderClient "key" "sid" "") 0 = true.
Proof.
  apply (NewProviderClient_is_expired "key" "sid" "" 0). vm_compute. discriminate.
Defined.

Lemma window_moves_expiry_earlier_witness :
  ibmcreds.IsExpired
    (snd (fst (ibmcreds.run_Retrieve sample.decode
                 (sample.with_window sample.provider (10 * time.Second))
                 (sample.always (scenario.token_reply 500)))))
    (time.Unix 495 0) =
  ibmcreds.IsExpired
    (snd (fst (ibmcreds.run_Retrieve sample.decode
                 (sample.with_window sample.provider 0)
                 (sample.always (scenario.token_reply 500)))))
    (time.Unix 495 0 + 10 * time.Second).
Proof.
  apply (window_moves_expiry_earlier sample.decode sample.provider
           (sample.always (scenario.token_reply 500))
           (10 * time.Second) (time.Unix 495 0));
    reflexivity.
Defined.

Lemma Sign_with_retrieved_credentials_witness :
  let r' := snd (fst (ibm.Sign scenario.retrieving
                        (ibm.NewSigner scenario.fresh)
                        sample.request (sample.op "CreateBucket"))) in
  fst (fst (ibm.Sign scenario.retrieving (ibm.NewSigner scenario.fresh)
              sample.request (sample.op "CreateBucket"))) = None /\
  http.Values (http.Header r') "Authorization" =
    http.Values (http.Header sample.request) "Authorization" ++
    ["Bearer " +:+ "tok"] /\
  http.Values (http.Header r') "ibm-service-instance-id" =
    http.Values (http.Header sample.request) "ibm-service-instance-id" ++
    (if named_bucket_op (sample.op "CreateBucket") then ["sid"] else []).
Proof.
  apply (Sign_with_retrieved_credentials sample.decode sample.provider
           (sample.always (scenario.token_reply 500))
           (sample.token_body "tok" 500)
           {| ibmcreds.Expiration := 500; ibmcreds.AccessToken := "tok" |}
           scenario.retrieving (ibm.NewSigner scenario.fresh)
           sample.request (sample.op "CreateBucket")
           (snd (scenario.retrieving scenario.fresh)));
    reflexivity.
Defined.

Lemma NewProviderClient_Retrieve_witness :
  fst (fst (ibmcreds.run_Retrieve sample.decode
              (ibmcreds.NewProviderClient "key" "sid" "")
              (sample.always (scenario.token_reply 500)))) =
    ({| credentials.ServiceInstanceID := "sid";
        credentials.SessionToken :=
          ibmcreds.AccessToken
            {| ibmcreds.Expiration := 500; ibmcreds.AccessToken := "tok" |};
        credentials.ProviderName := "IBMIAMProvider" |}, None) /\
  forall now,
    ibmcreds.IsExpired
      (snd (fst (ibmcreds.run_Retrieve sample.decode
                   (ibmcreds.NewProviderClient "key" "sid" "")
                   (sample.always (scenario.token_reply 500)))))
      now =
    negb (now <? ibmcreds.Expiration
                   {| ibmcreds.Expiration := 500; ibmcreds.AccessToken := "tok" |}
                 * 1000000000).
Proof.
  apply (NewProviderClient_Retrieve "key" "sid" "" sample.decode
           (sample.always (scenario.token_reply 500))
           (sample.token_body "tok" 500)
           {| ibmcreds.Expiration := 500; ibmcreds.AccessToken := "tok" |}).
  - reflexivity.
  - reflexivity.
  - simpl. lia.
Defined.

Lemma Retrieve_succeeds_iff_witness :
  fst (fst (ibmcreds.run_Retrieve sample.decode sample.provider
              (sample.always (scenario.token_reply 500)))) =
    ({| credentials.ServiceInstanceID := ibmcreds.serviceInstanceID sample.provider;
        credentials.SessionToken :=
          ibmcreds.AccessToken
            {| ibmcreds.Expiration := 500; ibmcreds.AccessToken := "tok" |};
        credentials.ProviderName := "IBMIAMProvider" |}, None).
Proof.
  apply (proj2 (Retrieve_succeeds_iff sample.decode sample.provider
                  (sample.always (scenario.token_reply 500)))
               (sample.token_body "tok" 500)
               {| ibmcreds.Expiration := 500; ibmcreds.AccessToken := "tok" |});
    reflexivity.
Defined.
